(** * c10/core/StorageImpl.cpp: storage handle accessors, the StorageImpl
      creation registry and the make_storage_impl factory.

    The translation unit is embedded function by function.  Code that throws
    or mutates is written in a small exception-and-state monad [M Σ A]: a
    computation reads and writes a state of type [Σ] (the receiver object of
    a method, or the process-wide registry array), may throw, and emits the
    calls it makes to capabilities that live outside the translation unit
    (allocator, copy-on-write materialisation, registered creation
    function). *)

From stdpp Require Import base decidable option list vector fin numbers.

Local Open Scope Z_scope.

(** ** Pointers, sizes and buffers *)

(** Raw addresses; [nullptr] is address zero. *)
Abbreviation address := Z.
Definition nullptr : address := 0.

(** c10::Allocator*: the allocator is known to this file only through a
    pointer that is stored and handed on. *)
Abbreviation Allocator := address.

(** StorageImplCreateHelper is a plain function pointer; an empty slot of
    the registry holds [nullptr]. *)
Abbreviation StorageImplCreateHelper := address.

(** The tag type StorageImpl::use_byte_size_t carries no data. *)
Definition use_byte_size_t := unit.

(** Modelled from the spec: c10::SymInt is declared outside this file.  The
    byte size is a concrete number of bytes or a symbolic quantity that is
    not resolved yet; the file only stores it and hands it on. *)
Inductive SymInt :=
| Concrete (n : Z)
| Symbolic (node : nat).

(** Modelled from the spec: at::DataPtr is declared outside this file.  A
    buffer handle is an owning pointer to raw memory together with the
    context needed to free it.  [get] and [mutable_get] read the same stored
    address, one as const void*, the other as void*; the handle compares
    equal to nullptr when it holds nothing. *)
Record DataPtr := {
  dp_data : address;
  dp_ctx : address;
}.

Definition DataPtr_get (d : DataPtr) : address := dp_data d.
Definition DataPtr_mutable_get (d : DataPtr) : address := dp_data d.
Definition DataPtr_eq_nullptr (d : DataPtr) : bool :=
  bool_decide (dp_data d = nullptr) && bool_decide (dp_ctx d = nullptr).
Definition DataPtr_ne_nullptr (d : DataPtr) : bool :=
  negb (DataPtr_eq_nullptr d).

(** ** The storage handle *)

(** Modelled from the spec: the class StorageImpl is declared in
    StorageImpl.h, outside this file.  The fields are the ones the member
    functions below read ([data_ptr_], [has_data_ptr_check_],
    [throw_on_mutable_data_ptr_]), the ones the constructors receive, and
    the copy-on-write mark of the spec's data model. *)
Record StorageImpl := {
  data_ptr_ : DataPtr;
  size_bytes_ : SymInt;
  resizable_ : bool;
  allocator_ : Allocator;
  has_data_ptr_check_ : bool;
  throw_on_mutable_data_ptr_ : bool;
  copy_on_write_ : bool;
}.

(** The three access modes of the spec's data model. *)
Inductive AccessMode := Normal | ReadOnlyStrict | CopyOnWritePending.

(** Modelled from the spec: how the two access-control flags encode the
    access mode.  The throw flag wins over the copy-on-write mark, which is
    the order in which the mutable accessors test them. *)
Definition access_mode (this : StorageImpl) : AccessMode :=
  if throw_on_mutable_data_ptr_ this then ReadOnlyStrict
  else if copy_on_write_ this then CopyOnWritePending
  else Normal.

(** Modelled from the spec: the spec knows one access mode per handle, the
    mutable accessors test the gate [has_data_ptr_check_] before they look
    at either flag.  A handle represents its access mode when the gate is in
    step with the flags: it caches whether a mutable access has anything to
    check, that is, whether one of the two access-control flags is set.
    Keeping it so is the business of the class declaration, which is
    outside this file; the constructors and accessors modelled here do. *)
Definition data_ptr_check_refreshed (this : StorageImpl) : Prop :=
  has_data_ptr_check_ this
  = throw_on_mutable_data_ptr_ this || copy_on_write_ this.

(** ** Errors, events and the monad *)

(** The three TORCH_CHECK sites of the file, named as in the spec's error
    taxonomy, and exceptions of outside capabilities, which pass through
    unchanged. *)
Inductive Error :=
| NullDataAccessError
| DomainNotAllowedError
| AlreadyRegisteredError
| ExternalError (code : Z).

Inductive Result (A : Type) :=
| Ok (a : A)
| Err (e : Error).
Arguments Ok {A} a.
Arguments Err {A} e.

(** Calls that leave the translation unit. *)
Inductive Event :=
| EvMaterialize (b : DataPtr) (n : SymInt)
| EvAllocate (a : Allocator) (n : SymInt)
| EvCreate (f : StorageImplCreateHelper) (n : SymInt) (b : DataPtr)
    (a : Allocator) (resizable : bool).

Definition M (Σ A : Type) : Type := Σ → Result A * Σ * list Event.

Definition ret {Σ A} (a : A) : M Σ A := λ s, (Ok a, s, []).

Definition bind {Σ A B} (m : M Σ A) (k : A → M Σ B) : M Σ B :=
  λ s, match m s with
       | (Ok a, s1, e1) =>
           match k a s1 with (r, s2, e2) => (r, s2, e1 ++ e2) end
       | (Err e, s1, e1) => (Err e, s1, e1)
       end.

Definition throw {Σ A} (e : Error) : M Σ A := λ s, (Err e, s, []).
Definition get_state {Σ} : M Σ Σ := λ s, (Ok s, s, []).
Definition put_state {Σ} (s' : Σ) : M Σ unit := λ _, (Ok tt, s', []).
Definition emit {Σ} (ev : Event) : M Σ unit := λ s, (Ok tt, s, [ev]).

(** The outcome of an outside call: its value, or its exception rethrown. *)
Definition outcome {Σ A} (r : Result A) : M Σ A := λ s, (r, s, []).

#[global] Instance M_ret {Σ} : MRet (M Σ) := λ A, ret.
#[global] Instance M_bind {Σ} : MBind (M Σ) := λ A B k m, bind m k.

(** TORCH_CHECK(cond, msg...) throws when [cond] is false. *)
Definition TORCH_CHECK {Σ} (cond : bool) (e : Error) : M Σ unit :=
  if cond then ret tt else throw e.

(** Modelled from the spec: the capabilities the file consumes from outside
    (allocator, materialisation) and the code behind a registered function
    pointer.  Each is a function of the arguments the file passes; it
    returns a value or throws, and what it throws passes through the file
    unchanged. *)
Class Capabilities := {
  (** Allocator::allocate through the allocator pointer. *)
  allocate : Allocator → SymInt → Result DataPtr;
  (** The copy-on-write duplication routine. *)
  materialize : DataPtr → SymInt → Result DataPtr;
  (** The call through a registered creation function pointer. *)
  invoke : StorageImplCreateHelper → use_byte_size_t → SymInt → DataPtr →
           Allocator → bool → Result StorageImpl;
}.

(** Modelled from the spec: what materialisation does to the handle.  The
    exclusive buffer [b] replaces the handle's buffer, the copy-on-write
    mark is cleared and the fast-path gate is refreshed. *)
Definition materialized (this : StorageImpl) (b : DataPtr) : StorageImpl :=
  {| data_ptr_ := b;
     size_bytes_ := size_bytes_ this;
     resizable_ := resizable_ this;
     allocator_ := allocator_ this;
     has_data_ptr_check_ := throw_on_mutable_data_ptr_ this;
     throw_on_mutable_data_ptr_ := throw_on_mutable_data_ptr_ this;
     copy_on_write_ := false |}.

(** Modelled from the spec: the contract of the materialisation capability.
    The buffer it returns is a new, physically exclusive one, so it does not
    sit at the address of the shared buffer it was copied from. *)
Definition materialize_exclusive `{Capabilities} : Prop :=
  ∀ b n b', materialize b n = Ok b' → DataPtr_get b' ≠ DataPtr_get b.

(** Modelled from the spec: c10::DeviceType is declared outside this file.
    The device domains form a small closed set; [static_cast_int] is the
    ordinal of a domain, always below the size of the registry array. *)
Class DeviceTypes (DeviceType : Type) := {
  DeviceType_eq_dec :: EqDecision DeviceType;
  COMPILE_TIME_MAX_DEVICE_TYPES : nat;
  PrivateUse1 : DeviceType;
  static_cast_int : DeviceType → fin COMPILE_TIME_MAX_DEVICE_TYPES;
  static_cast_int_inj :: Inj (=) (=) static_cast_int;
}.

(** at::Device: a device domain and an index within it. *)
Record Device {DeviceType : Type} := {
  type : DeviceType;
  index : Z;
}.
Arguments Device DeviceType : clear implicits.

(** The type of the global StorageImplCreate: a std::array of function
    pointers, one slot per device type. *)
Abbreviation Registry :=
  (vec StorageImplCreateHelper COMPILE_TIME_MAX_DEVICE_TYPES).

Section StorageImpl_cpp.
Context `{caps : Capabilities} `{devs : DeviceTypes DeviceType}.

(** *** Accessors (receiver state: the handle itself) *)

Definition throwNullDataPtrError {Σ} : M Σ unit :=
  TORCH_CHECK false NullDataAccessError.

(** Modelled from the spec: maybe_materialize_cow is defined in
    StorageImpl.h, outside this file.  When the handle is copy-on-write
    pending, the materialisation capability produces a physically exclusive
    buffer with the same content; that buffer replaces the handle's buffer
    and the access mode is reset to Normal.  Otherwise nothing happens. *)
Definition maybe_materialize_cow : M StorageImpl unit :=
  this ← get_state;
  if copy_on_write_ this then
    emit (EvMaterialize (data_ptr_ this) (size_bytes_ this));;
    b ← outcome (materialize (data_ptr_ this) (size_bytes_ this));
    put_state (materialized this b)
  else ret tt.

Definition mutable_data_ptr : M StorageImpl DataPtr :=
  this ← get_state;
  (if has_data_ptr_check_ this then
     (if throw_on_mutable_data_ptr_ this then throwNullDataPtrError
      else ret tt);;
     maybe_materialize_cow
   else ret tt);;
  this ← get_state;
  ret (data_ptr_ this).

Definition data_ptr : M StorageImpl DataPtr :=
  this ← get_state;
  ret (data_ptr_ this).

Definition data : M StorageImpl address :=
  this ← get_state;
  ret (DataPtr_get (data_ptr_ this)).

Definition mutable_data : M StorageImpl address :=
  this ← get_state;
  (if has_data_ptr_check_ this then
     (if throw_on_mutable_data_ptr_ this then throwNullDataPtrError
      else ret tt);;
     maybe_materialize_cow
   else ret tt);;
  this ← get_state;
  ret (DataPtr_mutable_get (data_ptr_ this)).

(** *** The creation registry (state: the global array) *)

(** A global of static storage duration starts zero-initialised. *)
Definition StorageImplCreate_initial : Registry :=
  vreplicate COMPILE_TIME_MAX_DEVICE_TYPES nullptr.

(** The file-local allow-list; nothing in the file ever changes it. *)
Definition DeviceTypeAllowList : list DeviceType := [PrivateUse1].

Definition SetStorageImplCreate (t : DeviceType)
    (fptr : StorageImplCreateHelper) : M Registry unit :=
  TORCH_CHECK (bool_decide (t ∈ DeviceTypeAllowList)) DomainNotAllowedError;;
  let device_type := static_cast_int t in
  StorageImplCreate ← get_state;
  TORCH_CHECK (bool_decide (StorageImplCreate !!! device_type = nullptr))
    AlreadyRegisteredError;;
  put_state (vinsert device_type fptr StorageImplCreate).

Definition GetStorageImplCreate (t : DeviceType)
    : M Registry StorageImplCreateHelper :=
  let device_type := static_cast_int t in
  StorageImplCreate ← get_state;
  ret (StorageImplCreate !!! device_type).

(** *** The factory *)

(** Modelled from the spec: the constructors of StorageImpl are defined in
    StorageImpl.h, outside this file.  Given a buffer, the handle takes
    ownership of it as it is. *)
Definition StorageImpl_init (size_bytes : SymInt) (data_ptr : DataPtr)
    (allocator : Allocator) (resizable : bool) : StorageImpl :=
  {| data_ptr_ := data_ptr;
     size_bytes_ := size_bytes;
     resizable_ := resizable;
     allocator_ := allocator;
     has_data_ptr_check_ := false;
     throw_on_mutable_data_ptr_ := false;
     copy_on_write_ := false |}.

Definition StorageImpl_of_data_ptr {Σ} (_ : use_byte_size_t)
    (size_bytes : SymInt) (data_ptr : DataPtr) (allocator : Allocator)
    (resizable : bool) : M Σ StorageImpl :=
  ret (StorageImpl_init size_bytes data_ptr allocator resizable).

(** Modelled from the spec: given no buffer, the handle obtains a fresh
    buffer of the requested size from the allocator before construction
    completes; an allocation failure passes through. *)
Definition StorageImpl_of_allocator {Σ} (u : use_byte_size_t)
    (size_bytes : SymInt) (allocator : Allocator) (resizable : bool)
    : M Σ StorageImpl :=
  emit (EvAllocate allocator size_bytes);;
  b ← outcome (allocate allocator size_bytes);
  StorageImpl_of_data_ptr u size_bytes b allocator resizable.

Definition make_storage_impl (use_byte_size : use_byte_size_t)
    (size_bytes : SymInt) (data_ptr : DataPtr) (allocator : Allocator)
    (resizable : bool) (device_opt : option (Device DeviceType))
    : M Registry StorageImpl :=
  fptr ← match device_opt with
         | Some device => GetStorageImplCreate (type device)
         | None => ret nullptr
         end;
  if bool_decide (fptr ≠ nullptr) then
    emit (EvCreate fptr size_bytes data_ptr allocator resizable);;
    outcome (invoke fptr use_byte_size size_bytes data_ptr allocator resizable)
  else if DataPtr_ne_nullptr data_ptr then
    StorageImpl_of_data_ptr use_byte_size size_bytes data_ptr allocator
      resizable
  else
    StorageImpl_of_allocator use_byte_size size_bytes allocator resizable.

(** The spec's step 3, default construction, on its own: a supplied buffer
    is adopted, otherwise one is obtained from the allocator.  The theorems
    compare the factory with it. *)
Definition default_storage_impl {Σ} (use_byte_size : use_byte_size_t)
    (size_bytes : SymInt) (data_ptr : DataPtr) (allocator : Allocator)
    (resizable : bool) : M Σ StorageImpl :=
  if DataPtr_ne_nullptr data_ptr then
    StorageImpl_of_data_ptr use_byte_size size_bytes data_ptr allocator
      resizable
  else
    StorageImpl_of_allocator use_byte_size size_bytes allocator resizable.

(** The creation function registered for the device the caller names, or
    [nullptr] when the caller names none or nothing is registered for it. *)
Definition registered_for (StorageImplCreate : Registry)
    (device_opt : option (Device DeviceType)) : StorageImplCreateHelper :=
  match device_opt with
  | Some device => StorageImplCreate !!! static_cast_int (type device)
  | None => nullptr
  end.

(** *** Clients, for statements about sequences of calls *)

(** The accessors of a handle, as a client may call them. *)
Inductive Accessor :=
| Call_data
| Call_data_ptr
| Call_mutable_data
| Call_mutable_data_ptr.

Definition is_mutable (c : Accessor) : bool :=
  match c with
  | Call_mutable_data | Call_mutable_data_ptr => true
  | Call_data | Call_data_ptr => false
  end.

(** What an accessor hands back: a raw address or the buffer handle. *)
Inductive Value :=
| Address (a : address)
| Buffer (d : DataPtr).

Definition address_of (v : Value) : address :=
  match v with
  | Address a => a
  | Buffer d => DataPtr_get d
  end.

Definition call (c : Accessor) : M StorageImpl Value :=
  match c with
  | Call_data => a ← data; ret (Address a)
  | Call_data_ptr => d ← data_ptr; ret (Buffer d)
  | Call_mutable_data => a ← mutable_data; ret (Address a)
  | Call_mutable_data_ptr => d ← mutable_data_ptr; ret (Buffer d)
  end.

(** A client that makes the calls [cs] in order on one handle and catches
    every exception: the results in call order, the handle at the end and
    everything emitted on the way. *)
Fixpoint calls (cs : list Accessor) (this : StorageImpl)
    : list (Result Value) * StorageImpl * list Event :=
  match cs with
  | [] => ([], this, [])
  | c :: cs' =>
      match call c this with
      | (r, this1, e1) =>
          match calls cs' this1 with
          | (rs, this2, e2) => (r :: rs, this2, e1 ++ e2)
          end
      end
  end.

(** What the spec promises a client of a ReadOnlyStrict handle, call by
    call: reads answer with the current buffer, mutable accesses fail. *)
Definition read_only_strict_answer (this : StorageImpl) (c : Accessor)
    : Result Value :=
  match c with
  | Call_data => Ok (Address (DataPtr_get (data_ptr_ this)))
  | Call_data_ptr => Ok (Buffer (data_ptr_ this))
  | Call_mutable_data | Call_mutable_data_ptr => Err NullDataAccessError
  end.

(** The registry after a sequence of registration attempts, failed ones
    included. *)
Fixpoint registrations (rs : list (DeviceType * StorageImplCreateHelper))
    (StorageImplCreate : Registry) : Registry :=
  match rs with
  | [] => StorageImplCreate
  | (t, fptr) :: rs' =>
      registrations rs' (SetStorageImplCreate t fptr StorageImplCreate).1.2
  end.

(** The function that ends up registered after a sequence of registration
    attempts on an empty registry, read off the two checks of
    SetStorageImplCreate: the first non-null function offered for
    PrivateUse1, [nullptr] when there is none. *)
Fixpoint first_registered (rs : list (DeviceType * StorageImplCreateHelper))
    : StorageImplCreateHelper :=
  match rs with
  | [] => nullptr
  | (t, fptr) :: rs' =>
      if bool_decide (t = PrivateUse1 ∧ fptr ≠ nullptr) then fptr
      else first_registered rs'
  end.

(** The value part of an outcome seen through a function (a void* read off
    a DataPtr&); an exception stays what it is. *)
Definition Result_map {A B} (f : A → B) (r : Result A) : Result B :=
  match r with
  | Ok a => Ok (f a)
  | Err e => Err e
  end.

End StorageImpl_cpp.

(** ** A concrete platform, to run the definitions on

    The theorems below hold for every set of device types and every
    behaviour of the outside capabilities.  The platform fixes one of each:
    the device types of c10/core/DeviceType.h in their declared order, and
    capabilities that are simple enough to evaluate by hand. *)

Module Platform.

Inductive DeviceType :=
| CPU | CUDA | MKLDNN | OPENGL | OPENCL | IDEEP | HIP | FPGA | ORT | XLA
| Vulkan | Metal | XPU | MPS | Meta | HPU | VE | Lazy | IPU | MTIA
| PrivateUse1.

Definition ordinal (t : DeviceType) : nat :=
  match t with
  | CPU => 0 | CUDA => 1 | MKLDNN => 2 | OPENGL => 3 | OPENCL => 4
  | IDEEP => 5 | HIP => 6 | FPGA => 7 | ORT => 8 | XLA => 9
  | Vulkan => 10 | Metal => 11 | XPU => 12 | MPS => 13 | Meta => 14
  | HPU => 15 | VE => 16 | Lazy => 17 | IPU => 18 | MTIA => 19
  | PrivateUse1 => 20
  end%nat.

(** The ordinal as an index into an array of [S m] slots. *)
Fixpoint slot (m n : nat) : fin (S m) :=
  match n, m with
  | S n', S m' => FS (slot m' n')
  | _, _ => 0%fin
  end.

#[global] Instance DeviceType_eq_dec : EqDecision DeviceType.
Proof. solve_decision. Defined.

Definition device_types : DeviceTypes DeviceType.
Proof.
  refine (Build_DeviceTypes DeviceType _ 21 PrivateUse1
            (λ t, slot 20 (ordinal t)) _).
  intros x y Heq. apply (f_equal fin_to_nat) in Heq.
  destruct x, y; first [reflexivity | vm_compute in Heq; discriminate Heq].
Defined.

(** The handle a registered creation function of the platform returns:
    it owns a buffer of its own choosing. *)
Definition sentinel : StorageImpl :=
  {| data_ptr_ := {| dp_data := 48879; dp_ctx := 48879 |};
     size_bytes_ := Concrete 0;
     resizable_ := false;
     allocator_ := nullptr;
     has_data_ptr_check_ := false;
     throw_on_mutable_data_ptr_ := false;
     copy_on_write_ := false |}.

(** The allocator hands out the block at 65536; materialisation copies to
    the next page; every creation function returns [sentinel]. *)
Definition capabilities : Capabilities :=
  {| allocate a n := Ok {| dp_data := 65536; dp_ctx := a |};
     materialize b n :=
       Ok {| dp_data := dp_data b + 4096; dp_ctx := dp_ctx b |};
     invoke f u n b a r := Ok sentinel |}.

(** A buffer at address 4096 and handles on it in each access mode. *)
Definition buffer : DataPtr := {| dp_data := 4096; dp_ctx := 4096 |}.

(** The buffer handle that holds nothing. *)
Definition null_buffer : DataPtr := {| dp_data := 0; dp_ctx := 0 |}.

Definition handle (check throws cow : bool) : StorageImpl :=
  {| data_ptr_ := buffer;
     size_bytes_ := Concrete 64;
     resizable_ := true;
     allocator_ := 8;
     has_data_ptr_check_ := check;
     throw_on_mutable_data_ptr_ := throws;
     copy_on_write_ := cow |}.

Definition normal_handle : StorageImpl := handle false false false.
Definition strict_handle : StorageImpl := handle true true false.
Definition strict_cow_handle : StorageImpl := handle true true true.
Definition cow_handle : StorageImpl := handle true false true.

(** A handle with both flags set and the gate clear. *)
Definition ungated_handle : StorageImpl := handle false true true.

(** A creation function at address 28672, and the registry once it has been
    registered for PrivateUse1. *)
Definition custom_create : StorageImplCreateHelper := 28672.

Definition registered : vec StorageImplCreateHelper 21 :=
  registrations (devs := device_types) [(PrivateUse1, custom_create)]
    (StorageImplCreate_initial (devs := device_types)).

End Platform.

(** ** Running the monad *)

Ltac run :=
  repeat first
    [ progress unfold mbind, mret, M_bind, M_ret, bind, ret, throw,
        get_state, put_state, emit, outcome, TORCH_CHECK,
        throwNullDataPtrError
    | progress cbn ].

Section Accessors.
Context `{caps : Capabilities}.

Lemma mutable_data_unchecked this :
  has_data_ptr_check_ this = false →
  mutable_data this = (Ok (DataPtr_mutable_get (data_ptr_ this)), this, []).
Proof. intros Hc. unfold mutable_data. run. by rewrite Hc. Qed.

Lemma mutable_data_ptr_unchecked this :
  has_data_ptr_check_ this = false →
  mutable_data_ptr this = (Ok (data_ptr_ this), this, []).
Proof. intros Hc. unfold mutable_data_ptr. run. by rewrite Hc. Qed.

Lemma mutable_data_throws this :
  has_data_ptr_check_ this = true →
  throw_on_mutable_data_ptr_ this = true →
  mutable_data this = (Err NullDataAccessError, this, []).
Proof. intros Hc Ht. unfold mutable_data. run. by rewrite Hc, Ht. Qed.

Lemma mutable_data_ptr_throws this :
  has_data_ptr_check_ this = true →
  throw_on_mutable_data_ptr_ this = true →
  mutable_data_ptr this = (Err NullDataAccessError, this, []).
Proof. intros Hc Ht. unfold mutable_data_ptr. run. by rewrite Hc, Ht. Qed.

Lemma maybe_materialize_cow_pending this b :
  copy_on_write_ this = true →
  materialize (data_ptr_ this) (size_bytes_ this) = Ok b →
  maybe_materialize_cow this
  = (Ok tt, materialized this b,
     [EvMaterialize (data_ptr_ this) (size_bytes_ this)]).
Proof.
  intros Hw Hm. unfold maybe_materialize_cow. run. by rewrite Hw, Hm.
Qed.

Lemma maybe_materialize_cow_idle this :
  copy_on_write_ this = false →
  maybe_materialize_cow this = (Ok tt, this, []).
Proof. intros Hw. unfold maybe_materialize_cow. run. by rewrite Hw. Qed.

Lemma mutable_data_idle this :
  has_data_ptr_check_ this = true →
  throw_on_mutable_data_ptr_ this = false →
  copy_on_write_ this = false →
  mutable_data this = (Ok (DataPtr_mutable_get (data_ptr_ this)), this, []).
Proof.
  intros Hc Ht Hw. unfold mutable_data. run. rewrite Hc, Ht. run.
  by rewrite (maybe_materialize_cow_idle this Hw).
Qed.

Lemma mutable_data_ptr_idle this :
  has_data_ptr_check_ this = true →
  throw_on_mutable_data_ptr_ this = false →
  copy_on_write_ this = false →
  mutable_data_ptr this = (Ok (data_ptr_ this), this, []).
Proof.
  intros Hc Ht Hw. unfold mutable_data_ptr. run. rewrite Hc, Ht. run.
  by rewrite (maybe_materialize_cow_idle this Hw).
Qed.

Lemma maybe_materialize_cow_fails this e :
  copy_on_write_ this = true →
  materialize (data_ptr_ this) (size_bytes_ this) = Err e →
  maybe_materialize_cow this
  = (Err e, this, [EvMaterialize (data_ptr_ this) (size_bytes_ this)]).
Proof.
  intros Hw Hm. unfold maybe_materialize_cow. run. by rewrite Hw, Hm.
Qed.

Lemma mutable_data_fails this e :
  has_data_ptr_check_ this = true →
  throw_on_mutable_data_ptr_ this = false →
  copy_on_write_ this = true →
  materialize (data_ptr_ this) (size_bytes_ this) = Err e →
  mutable_data this
  = (Err e, this, [EvMaterialize (data_ptr_ this) (size_bytes_ this)]).
Proof.
  intros Hc Ht Hw Hm. unfold mutable_data. run. rewrite Hc, Ht. run.
  by rewrite (maybe_materialize_cow_fails this e Hw Hm).
Qed.

Lemma mutable_data_ptr_fails this e :
  has_data_ptr_check_ this = true →
  throw_on_mutable_data_ptr_ this = false →
  copy_on_write_ this = true →
  materialize (data_ptr_ this) (size_bytes_ this) = Err e →
  mutable_data_ptr this
  = (Err e, this, [EvMaterialize (data_ptr_ this) (size_bytes_ this)]).
Proof.
  intros Hc Ht Hw Hm. unfold mutable_data_ptr. run. rewrite Hc, Ht. run.
  by rewrite (maybe_materialize_cow_fails this e Hw Hm).
Qed.

Lemma mutable_data_materializes this b :
  has_data_ptr_check_ this = true →
  throw_on_mutable_data_ptr_ this = false →
  copy_on_write_ this = true →
  materialize (data_ptr_ this) (size_bytes_ this) = Ok b →
  mutable_data this
  = (Ok (DataPtr_mutable_get b), materialized this b,
     [EvMaterialize (data_ptr_ this) (size_bytes_ this)]).
Proof.
  intros Hc Ht Hw Hm. unfold mutable_data. run. rewrite Hc, Ht. run.
  by rewrite (maybe_materialize_cow_pending this b Hw Hm).
Qed.

Lemma mutable_data_ptr_materializes this b :
  has_data_ptr_check_ this = true →
  throw_on_mutable_data_ptr_ this = false →
  copy_on_write_ this = true →
  materialize (data_ptr_ this) (size_bytes_ this) = Ok b →
  mutable_data_ptr this
  = (Ok b, materialized this b,
     [EvMaterialize (data_ptr_ this) (size_bytes_ this)]).
Proof.
  intros Hc Ht Hw Hm. unfold mutable_data_ptr. run. rewrite Hc, Ht. run.
  by rewrite (maybe_materialize_cow_pending this b Hw Hm).
Qed.

Lemma data_returns this :
  data this = (Ok (DataPtr_get (data_ptr_ this)), this, []).
Proof. reflexivity. Qed.

Lemma data_ptr_returns this :
  data_ptr this = (Ok (data_ptr_ this), this, []).
Proof. reflexivity. Qed.

(** The flags behind each access mode; the gate is known on a handle that
    keeps it refreshed. *)
Lemma normal_flags this :
  access_mode this = Normal →
  throw_on_mutable_data_ptr_ this = false ∧ copy_on_write_ this = false.
Proof.
  unfold access_mode.
  by destruct (throw_on_mutable_data_ptr_ this), (copy_on_write_ this).
Qed.

Lemma strict_flags this :
  data_ptr_check_refreshed this → access_mode this = ReadOnlyStrict →
  has_data_ptr_check_ this = true ∧ throw_on_mutable_data_ptr_ this = true.
Proof.
  unfold data_ptr_check_refreshed, access_mode. intros -> Hm.
  by destruct (throw_on_mutable_data_ptr_ this), (copy_on_write_ this).
Qed.

Lemma cow_flags this :
  data_ptr_check_refreshed this → access_mode this = CopyOnWritePending →
  has_data_ptr_check_ this = true ∧ throw_on_mutable_data_ptr_ this = false
  ∧ copy_on_write_ this = true.
Proof.
  unfold data_ptr_check_refreshed, access_mode. intros -> Hm.
  by destruct (throw_on_mutable_data_ptr_ this), (copy_on_write_ this).
Qed.

(** On a handle that no mutable access has anything to do for, any
    sequence of calls changes nothing and emits nothing. *)
Lemma calls_unchecked cs this :
  has_data_ptr_check_ this = false →
  (calls cs this).1.2 = this ∧ (calls cs this).2 = [].
Proof.
  intros Hc. induction cs as [|c cs [IH1 IH2]]; [done|].
  assert (∃ v, call c this = (Ok v, this, [])) as [v Hv].
  { destruct c; cbn -[mutable_data mutable_data_ptr]; run;
      rewrite ?(mutable_data_unchecked _ Hc),
        ?(mutable_data_ptr_unchecked _ Hc); eauto. }
  cbn -[call]. rewrite Hv.
  destruct (calls cs this) as [[rs this2] e2]. by simplify_eq/=.
Qed.

(** The gate invariant is established by construction and kept by every
    accessor, whatever the outcome of the call. *)
Lemma StorageImpl_init_refreshed n b a r :
  data_ptr_check_refreshed (StorageImpl_init n b a r).
Proof. reflexivity. Qed.

Lemma materialized_refreshed this b :
  data_ptr_check_refreshed (materialized this b).
Proof.
  unfold data_ptr_check_refreshed. cbn.
  by destruct (throw_on_mutable_data_ptr_ this).
Qed.

Lemma mutable_data_state this :
  (mutable_data this).1.2 = this
  ∨ ∃ b, (mutable_data this).1.2 = materialized this b.
Proof.
  destruct (has_data_ptr_check_ this) eqn:Hc;
    [|left; by rewrite mutable_data_unchecked].
  destruct (throw_on_mutable_data_ptr_ this) eqn:Ht;
    [left; by rewrite mutable_data_throws|].
  destruct (copy_on_write_ this) eqn:Hw;
    [|left; by rewrite mutable_data_idle].
  destruct (materialize (data_ptr_ this) (size_bytes_ this)) as [b|e] eqn:Hm.
  - right. exists b. by rewrite (mutable_data_materializes this b).
  - left. by rewrite (mutable_data_fails this e).
Qed.

Lemma mutable_data_ptr_state this :
  (mutable_data_ptr this).1.2 = this
  ∨ ∃ b, (mutable_data_ptr this).1.2 = materialized this b.
Proof.
  destruct (has_data_ptr_check_ this) eqn:Hc;
    [|left; by rewrite mutable_data_ptr_unchecked].
  destruct (throw_on_mutable_data_ptr_ this) eqn:Ht;
    [left; by rewrite mutable_data_ptr_throws|].
  destruct (copy_on_write_ this) eqn:Hw;
    [|left; by rewrite mutable_data_ptr_idle].
  destruct (materialize (data_ptr_ this) (size_bytes_ this)) as [b|e] eqn:Hm.
  - right. exists b. by rewrite (mutable_data_ptr_materializes this b).
  - left. by rewrite (mutable_data_ptr_fails this e).
Qed.

Lemma call_keeps_refreshed c this :
  data_ptr_check_refreshed this →
  data_ptr_check_refreshed (call c this).1.2.
Proof.
  intros Hr.
  assert ((call c this).1.2 = this
          ∨ ∃ b, (call c this).1.2 = materialized this b) as [->| [b ->]];
    [|done|apply materialized_refreshed].
  destruct c; [by left|by left|..]; cbn -[mutable_data mutable_data_ptr]; run.
  - destruct (mutable_data_state this) as [Hs|[b Hs]]; [left|right; exists b];
      by destruct (mutable_data this) as [[[]?]?].
  - destruct (mutable_data_ptr_state this) as [Hs|[b Hs]];
      [left|right; exists b];
      by destruct (mutable_data_ptr this) as [[[]?]?].
Qed.

(** With the throw flag set no call of any accessor changes the handle or
    makes an outside call, whether the gate is set or not. *)
Lemma calls_throw_flag_quiet cs this :
  throw_on_mutable_data_ptr_ this = true →
  (calls cs this).1.2 = this ∧ (calls cs this).2 = [].
Proof.
  intros Ht. destruct (has_data_ptr_check_ this) eqn:Hc.
  - assert (∀ c, (call c this).1.2 = this ∧ (call c this).2 = []) as Hq.
    { intros c. destruct c; cbn -[mutable_data mutable_data_ptr]; run;
        rewrite ?(mutable_data_throws _ Hc Ht),
          ?(mutable_data_ptr_throws _ Hc Ht); done. }
    induction cs as [|c cs [IH1 IH2]]; [done|].
    cbn -[call]. destruct (Hq c) as [Hq1 Hq2].
    destruct (call c this) as [[r this1] e1]. cbn in Hq1, Hq2. subst.
    destruct (calls cs this) as [[rs this2] e2]. by simplify_eq/=.
  - by apply calls_unchecked.
Qed.

(** C8. In every access mode, with no assumption on the handle at all, both
    read accessors succeed, return the address (or the handle) of the
    current buffer, emit no outside call and leave every field of the
    handle as it was; every accessor is either one of the two mutable
    accessors or leaves the handle, its buffer and its access mode
    included, unchanged. *)
Theorem read_accessors_keep_handle (this : StorageImpl) :
  data this = (Ok (DataPtr_get (data_ptr_ this)), this, [])
  ∧ data_ptr this = (Ok (data_ptr_ this), this, [])
  ∧ ∀ c, is_mutable c = true
         ∨ ∃ v, call c this = (Ok v, this, [])
                ∧ address_of v = DataPtr_get (data_ptr_ this).
Proof.
  repeat split. intros [| | |]; [right|right|left|left]; try done.
  - by exists (Address (DataPtr_get (data_ptr_ this))).
  - by exists (Buffer (data_ptr_ this)).
Qed.

(** C3. On a handle in the Normal access mode the mutable accessors return
    what the read accessors return (mutable_data the address data returns,
    mutable_data_ptr the buffer handle data_ptr returns), emit no outside
    call, and leave the handle, so its buffer and its access mode, exactly
    as it was. *)
Theorem normal_mutable_access_is_direct (this : StorageImpl) :
  access_mode this = Normal →
  mutable_data this = (Ok (DataPtr_get (data_ptr_ this)), this, [])
  ∧ mutable_data this = data this
  ∧ mutable_data_ptr this = (Ok (data_ptr_ this), this, [])
  ∧ mutable_data_ptr this = data_ptr this.
Proof.
  intros Hm. destruct (normal_flags this Hm) as [Ht Hw].
  rewrite data_returns, data_ptr_returns.
  destruct (has_data_ptr_check_ this) eqn:Hc.
  - by rewrite (mutable_data_idle this Hc Ht Hw),
      (mutable_data_ptr_idle this Hc Ht Hw).
  - by rewrite (mutable_data_unchecked this Hc),
      (mutable_data_ptr_unchecked this Hc).
Qed.

(** On a handle whose throw flag is set behind a set gate, a client gets
    the same answers in whatever order it calls, and nothing changes. *)
Lemma calls_throwing cs this :
  has_data_ptr_check_ this = true →
  throw_on_mutable_data_ptr_ this = true →
  calls cs this = (read_only_strict_answer this <$> cs, this, []).
Proof.
  intros Hc Ht. induction cs as [|c cs IH]; [done|].
  assert (call c this = (read_only_strict_answer this c, this, [])) as Hv.
  { destruct c; cbn -[mutable_data mutable_data_ptr]; run;
      rewrite ?(mutable_data_throws _ Hc Ht),
        ?(mutable_data_ptr_throws _ Hc Ht); done. }
  cbn -[call]. by rewrite Hv, IH.
Qed.

(** C2. On a handle in the ReadOnlyStrict access mode (throw flag set),
    data and data_ptr succeed with the current buffer, mutable_data and
    mutable_data_ptr fail with NullDataAccessError, and this stays so in
    whatever order and however often a client calls the four accessors:
    the handle is the same after every call and no outside call is made. *)
Theorem read_only_strict_accessors (this : StorageImpl)
    (cs : list Accessor) :
  data_ptr_check_refreshed this →
  access_mode this = ReadOnlyStrict →
  data this = (Ok (DataPtr_get (data_ptr_ this)), this, [])
  ∧ data_ptr this = (Ok (data_ptr_ this), this, [])
  ∧ mutable_data this = (Err NullDataAccessError, this, [])
  ∧ mutable_data_ptr this = (Err NullDataAccessError, this, [])
  ∧ calls cs this = (read_only_strict_answer this <$> cs, this, []).
Proof.
  intros Hr Hm. destruct (strict_flags this Hr Hm) as [Hc Ht].
  repeat split;
    auto using mutable_data_throws, mutable_data_ptr_throws, calls_throwing.
Qed.

(** C9. On a handle with the throw flag set, copy-on-write pending or not,
    both mutable accessors fail with NullDataAccessError at the flag test,
    before the copy-on-write test is reached: the handle is untouched and
    no outside call is made.  Over any sequence of accessor calls on such a
    handle the materialisation capability is never invoked and the buffer
    and the copy-on-write mark stay as they were. *)
Theorem throw_flag_precedes_materialization (this : StorageImpl)
    (cs : list Accessor) :
  data_ptr_check_refreshed this →
  throw_on_mutable_data_ptr_ this = true →
  mutable_data_ptr this = (Err NullDataAccessError, this, [])
  ∧ mutable_data this = (Err NullDataAccessError, this, [])
  ∧ (∀ b n, EvMaterialize b n ∉ (calls cs this).2)
  ∧ data_ptr_ (calls cs this).1.2 = data_ptr_ this
  ∧ copy_on_write_ (calls cs this).1.2 = copy_on_write_ this.
Proof.
  intros Hr Ht.
  assert (has_data_ptr_check_ this = true) as Hc.
  { unfold data_ptr_check_refreshed in Hr. by rewrite Hr, Ht. }
  rewrite (calls_throwing cs this Hc Ht). cbn.
  repeat split;
    auto using mutable_data_throws, mutable_data_ptr_throws.
  intros b n. apply not_elem_of_nil.
Qed.

(** C1. On a copy-on-write pending handle backed by buffer B, with a
    materialisation capability that keeps its contract and succeeds with
    buffer b', the first call of a mutable accessor (either one) invokes
    materialisation exactly once, on B; it returns b', whose address is not
    B's; afterwards the handle owns b' and is in the Normal access mode; a
    second call of either mutable accessor returns b' again with no outside
    call, and so does every later sequence of accessor calls. *)
Theorem copy_on_write_materializes_once (this : StorageImpl)
    (b' : DataPtr) :
  materialize_exclusive →
  data_ptr_check_refreshed this →
  access_mode this = CopyOnWritePending →
  materialize (data_ptr_ this) (size_bytes_ this) = Ok b' →
  let this1 := materialized this b' in
  mutable_data this
  = (Ok (DataPtr_get b'), this1,
     [EvMaterialize (data_ptr_ this) (size_bytes_ this)])
  ∧ mutable_data_ptr this
    = (Ok b', this1, [EvMaterialize (data_ptr_ this) (size_bytes_ this)])
  ∧ DataPtr_get b' ≠ DataPtr_get (data_ptr_ this)
  ∧ data_ptr_ this1 = b'
  ∧ access_mode this1 = Normal
  ∧ data_ptr_check_refreshed this1
  ∧ mutable_data this1 = (Ok (DataPtr_get b'), this1, [])
  ∧ mutable_data_ptr this1 = (Ok b', this1, [])
  ∧ ∀ cs, (calls cs this1).1.2 = this1 ∧ (calls cs this1).2 = [].
Proof.
  intros Hx Hr Hm Hb this1.
  destruct (cow_flags this Hr Hm) as (Hc & Ht & Hw).
  assert (has_data_ptr_check_ this1 = false) as Hc1 by (by cbn).
  split_and!.
  - by rewrite (mutable_data_materializes this b' Hc Ht Hw Hb).
  - by rewrite (mutable_data_ptr_materializes this b' Hc Ht Hw Hb).
  - by apply (Hx _ _ _ Hb).
  - done.
  - unfold access_mode. cbn. by rewrite Ht.
  - unfold data_ptr_check_refreshed. cbn. by rewrite Ht.
  - by rewrite (mutable_data_unchecked this1 Hc1).
  - by rewrite (mutable_data_ptr_unchecked this1 Hc1).
  - intros cs. by apply calls_unchecked.
Qed.

End Accessors.

Section Registry.
Context `{devs : DeviceTypes DeviceType}.
Implicit Types (t : DeviceType) (fptr : StorageImplCreateHelper).
Implicit Types (reg : Registry).

Lemma allow_listed t : t ∈ DeviceTypeAllowList ↔ t = PrivateUse1.
Proof. unfold DeviceTypeAllowList. apply list_elem_of_singleton. Qed.

Lemma GetStorageImplCreate_reads t reg :
  GetStorageImplCreate t reg = (Ok (reg !!! static_cast_int t), reg, []).
Proof. reflexivity. Qed.

Lemma SetStorageImplCreate_refused t fptr reg :
  t ≠ PrivateUse1 →
  SetStorageImplCreate t fptr reg = (Err DomainNotAllowedError, reg, []).
Proof.
  intros Ht. unfold SetStorageImplCreate. run.
  rewrite bool_decide_eq_false_2; [done|]. by rewrite allow_listed.
Qed.

Lemma SetStorageImplCreate_taken fptr reg :
  reg !!! static_cast_int PrivateUse1 ≠ nullptr →
  SetStorageImplCreate PrivateUse1 fptr reg
  = (Err AlreadyRegisteredError, reg, []).
Proof.
  intros Hs. unfold SetStorageImplCreate. run.
  rewrite bool_decide_eq_true_2 by (by rewrite allow_listed). run.
  by rewrite bool_decide_eq_false_2.
Qed.

Lemma SetStorageImplCreate_stores fptr reg :
  reg !!! static_cast_int PrivateUse1 = nullptr →
  SetStorageImplCreate PrivateUse1 fptr reg
  = (Ok tt, vinsert (static_cast_int PrivateUse1) fptr reg, []).
Proof.
  intros Hs. unfold SetStorageImplCreate. run.
  rewrite bool_decide_eq_true_2 by (by rewrite allow_listed). run.
  by rewrite bool_decide_eq_true_2.
Qed.

(** A registration attempt, whatever its outcome, leaves the slot of every
    device type other than PrivateUse1 as it was. *)
Lemma SetStorageImplCreate_other_slots t0 fptr reg t :
  t ≠ PrivateUse1 →
  (SetStorageImplCreate t0 fptr reg).1.2 !!! static_cast_int t
  = reg !!! static_cast_int t.
Proof.
  intros Ht. destruct (decide (t0 = PrivateUse1)) as [->|Hne].
  - destruct (decide (reg !!! static_cast_int PrivateUse1 = nullptr))
      as [Hs|Hs].
    + rewrite (SetStorageImplCreate_stores _ _ Hs). cbn.
      apply vlookup_insert_ne. intros Heq. by apply (inj _) in Heq.
    + by rewrite (SetStorageImplCreate_taken _ _ Hs).
  - by rewrite (SetStorageImplCreate_refused _ _ _ Hne).
Qed.

Lemma registrations_other_slots rs reg t :
  t ≠ PrivateUse1 →
  registrations rs reg !!! static_cast_int t = reg !!! static_cast_int t.
Proof.
  intros Ht. revert reg. induction rs as [|[t0 fptr] rs IH]; intros reg.
  - done.
  - cbn -[SetStorageImplCreate]. rewrite IH.
    by apply SetStorageImplCreate_other_slots.
Qed.

(** C6. With the PrivateUse1 slot still empty, registering a non-empty
    creation function for PrivateUse1 succeeds and stores it; a lookup then
    returns it; a second registration for PrivateUse1, of any function,
    fails with AlreadyRegisteredError and leaves the registry as it was, so
    that the lookup still returns the first function. *)
Theorem registration_is_one_shot (reg : Registry)
    (first second : StorageImplCreateHelper) :
  reg !!! static_cast_int PrivateUse1 = nullptr →
  first ≠ nullptr →
  let reg1 := vinsert (static_cast_int PrivateUse1) first reg in
  SetStorageImplCreate PrivateUse1 first reg = (Ok tt, reg1, [])
  ∧ GetStorageImplCreate PrivateUse1 reg1 = (Ok first, reg1, [])
  ∧ SetStorageImplCreate PrivateUse1 second reg1
    = (Err AlreadyRegisteredError, reg1, [])
  ∧ GetStorageImplCreate PrivateUse1
      (SetStorageImplCreate PrivateUse1 second reg1).1.2
    = (Ok first, reg1, []).
Proof.
  intros Hs Hf reg1.
  assert (reg1 !!! static_cast_int PrivateUse1 = first) as H1
    by apply vlookup_insert.
  assert (SetStorageImplCreate PrivateUse1 first reg = (Ok tt, reg1, []))
    as H0 by (by apply SetStorageImplCreate_stores).
  clearbody reg1.
  assert (SetStorageImplCreate PrivateUse1 second reg1
          = (Err AlreadyRegisteredError, reg1, [])) as H2.
  { apply SetStorageImplCreate_taken. by rewrite H1. }
  split_and!.
  - done.
  - by rewrite GetStorageImplCreate_reads, H1.
  - done.
  - rewrite H2. cbn. by rewrite GetStorageImplCreate_reads, H1.
Qed.

(** C7. For a device type other than PrivateUse1, registering any creation
    function fails with DomainNotAllowedError on every registry and leaves
    it as it was; and in every registry that registration attempts have
    built from the initial one, the lookup for that device type returns
    nullptr, before and after such a failed attempt. *)
Theorem registration_outside_allow_list_fails (t : DeviceType)
    (fptr : StorageImplCreateHelper)
    (rs : list (DeviceType * StorageImplCreateHelper)) :
  t ≠ PrivateUse1 →
  (∀ reg, SetStorageImplCreate t fptr reg
          = (Err DomainNotAllowedError, reg, []))
  ∧ let reg := registrations rs StorageImplCreate_initial in
    GetStorageImplCreate t reg = (Ok nullptr, reg, [])
    ∧ GetStorageImplCreate t (SetStorageImplCreate t fptr reg).1.2
      = (Ok nullptr, reg, []).
Proof.
  intros Ht. split; [intros reg; by apply SetStorageImplCreate_refused|].
  intros reg.
  assert (reg !!! static_cast_int t = nullptr) as Hs.
  { unfold reg. rewrite registrations_other_slots by done.
    apply vlookup_replicate. }
  rewrite (SetStorageImplCreate_refused _ _ _ Ht). cbn.
  by rewrite GetStorageImplCreate_reads, Hs.
Qed.

End Registry.

Section Factory.
Context `{caps : Capabilities} `{devs : DeviceTypes DeviceType}.
Implicit Types (reg : Registry) (device_opt : option (Device DeviceType)).

(** The factory in closed form: the registered function decides. *)
Lemma make_storage_impl_cases u n b a r device_opt reg :
  make_storage_impl u n b a r device_opt reg
  = if bool_decide (registered_for reg device_opt = nullptr)
    then default_storage_impl u n b a r reg
    else (invoke (registered_for reg device_opt) u n b a r, reg,
          [EvCreate (registered_for reg device_opt) n b a r]).
Proof.
  unfold make_storage_impl, default_storage_impl.
  assert ((match device_opt with
           | Some device => GetStorageImplCreate (type device)
           | None => mret nullptr
           end) reg = (Ok (registered_for reg device_opt), reg, [])) as Hf
    by (by destruct device_opt).
  run. fold (@StorageImpl_of_allocator caps (vec Z COMPILE_TIME_MAX_DEVICE_TYPES)).
  unfold mret, M_ret, ret in Hf. rewrite Hf. clear Hf.
  destruct (decide (registered_for reg device_opt = nullptr)) as [Hn|Hn].
  - rewrite bool_decide_eq_false_2 by (by intros []).
    rewrite bool_decide_eq_true_2 by done.
    destruct (DataPtr_ne_nullptr b); [done|].
    by destruct (StorageImpl_of_allocator u n a r reg) as [[??]?].
  - rewrite bool_decide_eq_true_2 by done.
    rewrite bool_decide_eq_false_2 by done.
    by destruct (invoke _ u n b a r).
Qed.

Lemma StorageImpl_of_allocator_runs {Σ} u n a r (s : Σ) :
  StorageImpl_of_allocator u n a r s
  = (match allocate a n with
     | Ok b => Ok (StorageImpl_init n b a r)
     | Err e => Err e
     end, s, [EvAllocate a n]).
Proof.
  unfold StorageImpl_of_allocator, StorageImpl_of_data_ptr. run.
  by destruct (allocate a n).
Qed.

(** C4. Without a target device the factory is default construction,
    whatever the registry holds: it returns the same handle and makes the
    same outside calls on any two registries, and the registry is left as
    it was.  With a target device the slot of its device type alone
    decides: when it holds a creation function, the result is exactly what
    that function returns (its exception included) and the one outside call
    made is the call of that function, so nothing is allocated and nothing
    is constructed by the factory itself; when it holds nullptr, the
    factory is default construction. *)
Theorem make_storage_impl_dispatch (use_byte_size : use_byte_size_t)
    (size_bytes : SymInt) (data_ptr : DataPtr) (allocator : Allocator)
    (resizable : bool) (reg reg' : Registry) (device : Device DeviceType) :
  let make := make_storage_impl use_byte_size size_bytes data_ptr allocator
                resizable in
  let default := @default_storage_impl _ Registry use_byte_size size_bytes
                   data_ptr allocator resizable in
  let fptr := reg !!! static_cast_int (type device) in
  make None reg = default reg
  ∧ (make None reg).1.1 = (make None reg').1.1
  ∧ (make None reg).2 = (make None reg').2
  ∧ (make None reg).1.2 = reg
  ∧ make (Some device) reg
    = if bool_decide (fptr = nullptr) then default reg
      else (invoke fptr use_byte_size size_bytes data_ptr allocator
              resizable,
            reg, [EvCreate fptr size_bytes data_ptr allocator resizable]).
Proof.
  intros make default fptr. unfold make, default, fptr.
  rewrite !make_storage_impl_cases. cbn [registered_for].
  rewrite bool_decide_eq_true_2 by done.
  unfold default_storage_impl, StorageImpl_of_data_ptr.
  destruct (DataPtr_ne_nullptr data_ptr);
    [|rewrite !StorageImpl_of_allocator_runs]; done.
Qed.

(** C5, as amended.  When the call is not handed to a registered creation
    function (no target device, or nullptr in the slot of its device type)
    and a buffer is supplied, the factory succeeds without any outside
    call, so without asking the allocator, and the handle it returns owns
    exactly the supplied buffer, at the same address. *)
Theorem supplied_buffer_is_adopted (use_byte_size : use_byte_size_t)
    (size_bytes : SymInt) (data_ptr : DataPtr) (allocator : Allocator)
    (resizable : bool) (device_opt : option (Device DeviceType))
    (reg : Registry) :
  registered_for reg device_opt = nullptr →
  DataPtr_ne_nullptr data_ptr = true →
  ∃ this,
    make_storage_impl use_byte_size size_bytes data_ptr allocator resizable
      device_opt reg = (Ok this, reg, [])
    ∧ data_ptr_ this = data_ptr
    ∧ DataPtr_get (data_ptr_ this) = DataPtr_get data_ptr.
Proof.
  intros Hf Hb. rewrite make_storage_impl_cases.
  rewrite bool_decide_eq_true_2 by done.
  unfold default_storage_impl. rewrite Hb.
  by exists (StorageImpl_init size_bytes data_ptr allocator resizable).
Qed.

(** C10, as amended.  When the call is not handed to a registered creation
    function and the supplied buffer handle compares equal to nullptr, the
    factory builds the handle through the allocator-backed constructor, as
    if no buffer had been supplied: the allocator is asked once for a
    buffer of the requested size, the handle owns what the allocator
    returns, not the null buffer, and an allocation failure passes
    through. *)
Theorem null_buffer_is_allocated (use_byte_size : use_byte_size_t)
    (size_bytes : SymInt) (data_ptr : DataPtr) (allocator : Allocator)
    (resizable : bool) (device_opt : option (Device DeviceType))
    (reg : Registry) :
  registered_for reg device_opt = nullptr →
  DataPtr_eq_nullptr data_ptr = true →
  make_storage_impl use_byte_size size_bytes data_ptr allocator resizable
    device_opt reg
  = StorageImpl_of_allocator use_byte_size size_bytes allocator resizable reg
  ∧ make_storage_impl use_byte_size size_bytes data_ptr allocator resizable
      device_opt reg
    = (match allocate allocator size_bytes with
       | Ok b => Ok (StorageImpl_init size_bytes b allocator resizable)
       | Err e => Err e
       end, reg, [EvAllocate allocator size_bytes]).
Proof.
  intros Hf Hb. rewrite make_storage_impl_cases.
  rewrite bool_decide_eq_true_2 by done.
  unfold default_storage_impl, DataPtr_ne_nullptr. rewrite Hb. cbn [negb].
  by rewrite StorageImpl_of_allocator_runs.
Qed.

End Factory.

(** ** The theorems at work on the platform *)

Lemma platform_materialize_exclusive :
  materialize_exclusive (H := Platform.capabilities).
Proof.
  intros b n b' Hb. injection Hb as <-. unfold DataPtr_get. cbn. lia.
Defined.

(** C1 on the copy-on-write handle of the platform: the buffer at 4096 is
    materialised once, to 8192. *)
Lemma copy_on_write_materializes_once_witness :
  data_ptr_check_refreshed Platform.cow_handle
  ∧ access_mode Platform.cow_handle = CopyOnWritePending
  ∧ mutable_data (caps := Platform.capabilities) Platform.cow_handle
    = (Ok 8192,
       materialized Platform.cow_handle {| dp_data := 8192; dp_ctx := 4096 |},
       [EvMaterialize Platform.buffer (Concrete 64)])
  ∧ mutable_data (caps := Platform.capabilities)
      (materialized Platform.cow_handle {| dp_data := 8192; dp_ctx := 4096 |})
    = (Ok 8192,
       materialized Platform.cow_handle {| dp_data := 8192; dp_ctx := 4096 |},
       []).
Proof.
  assert (data_ptr_check_refreshed Platform.cow_handle) as Hr
    by reflexivity.
  assert (access_mode Platform.cow_handle = CopyOnWritePending) as Hm
    by reflexivity.
  pose proof (copy_on_write_materializes_once (caps := Platform.capabilities)
                Platform.cow_handle {| dp_data := 8192; dp_ctx := 4096 |}
                platform_materialize_exclusive Hr Hm eq_refl) as Hw.
  cbv zeta in Hw. destruct Hw as (H1 & _ & _ & _ & _ & _ & H2 & _).
  split_and!; [exact Hr | exact Hm | exact H1 | exact H2].
Defined.

(** C2 on the strict handle of the platform, with a mixed call order. *)
Lemma read_only_strict_accessors_witness :
  data_ptr_check_refreshed Platform.strict_handle
  ∧ access_mode Platform.strict_handle = ReadOnlyStrict
  ∧ calls (caps := Platform.capabilities)
      [Call_mutable_data; Call_data; Call_mutable_data_ptr; Call_data_ptr;
       Call_mutable_data]
      Platform.strict_handle
    = ([Err NullDataAccessError; Ok (Address 4096);
        Err NullDataAccessError; Ok (Buffer Platform.buffer);
        Err NullDataAccessError],
       Platform.strict_handle, []).
Proof.
  assert (data_ptr_check_refreshed Platform.strict_handle) as Hr
    by reflexivity.
  assert (access_mode Platform.strict_handle = ReadOnlyStrict) as Hm
    by reflexivity.
  split_and!; [exact Hr | exact Hm |].
  exact (proj2 (proj2 (proj2 (proj2
    (read_only_strict_accessors (caps := Platform.capabilities)
       Platform.strict_handle
       [Call_mutable_data; Call_data; Call_mutable_data_ptr; Call_data_ptr;
        Call_mutable_data] Hr Hm))))).
Defined.

(** C3 on the normal handle of the platform. *)
Lemma normal_mutable_access_is_direct_witness :
  data_ptr_check_refreshed Platform.normal_handle
  ∧ access_mode Platform.normal_handle = Normal
  ∧ mutable_data (caps := Platform.capabilities) Platform.normal_handle
    = (Ok 4096, Platform.normal_handle, [])
  ∧ mutable_data_ptr (caps := Platform.capabilities) Platform.normal_handle
    = (Ok Platform.buffer, Platform.normal_handle, []).
Proof.
  assert (data_ptr_check_refreshed Platform.normal_handle) as Hr
    by reflexivity.
  assert (access_mode Platform.normal_handle = Normal) as Hm by reflexivity.
  destruct (normal_mutable_access_is_direct (caps := Platform.capabilities)
              Platform.normal_handle Hm) as (H1 & _ & H2 & _).
  split_and!; [exact Hr | exact Hm | exact H1 | exact H2].
Defined.

(** C9 on a handle that has the throw flag set and is copy-on-write pending
    as well. *)
Lemma throw_flag_precedes_materialization_witness :
  data_ptr_check_refreshed Platform.strict_cow_handle
  ∧ throw_on_mutable_data_ptr_ Platform.strict_cow_handle = true
  ∧ copy_on_write_ Platform.strict_cow_handle = true
  ∧ mutable_data_ptr (caps := Platform.capabilities)
      Platform.strict_cow_handle
    = (Err NullDataAccessError, Platform.strict_cow_handle, [])
  ∧ mutable_data (caps := Platform.capabilities) Platform.strict_cow_handle
    = (Err NullDataAccessError, Platform.strict_cow_handle, []).
Proof.
  assert (data_ptr_check_refreshed Platform.strict_cow_handle) as Hr
    by reflexivity.
  assert (throw_on_mutable_data_ptr_ Platform.strict_cow_handle = true)
    as Ht by reflexivity.
  destruct (throw_flag_precedes_materialization
              (caps := Platform.capabilities) Platform.strict_cow_handle
              [Call_mutable_data] Hr Ht) as (H1 & H2 & _).
  split_and!; [exact Hr | exact Ht | reflexivity | exact H1 | exact H2].
Defined.

(** C6 on the initial registry of the platform: custom_create is stored,
    a second function is refused, the lookup keeps answering with
    custom_create. *)
Lemma registration_is_one_shot_witness :
  StorageImplCreate_initial (devs := Platform.device_types)
    !!! static_cast_int (PrivateUse1 (DeviceTypes := Platform.device_types))
  = nullptr
  ∧ Platform.custom_create ≠ nullptr
  ∧ SetStorageImplCreate (devs := Platform.device_types)
      Platform.PrivateUse1 Platform.custom_create
      (StorageImplCreate_initial (devs := Platform.device_types))
    = (Ok tt, Platform.registered, [])
  ∧ SetStorageImplCreate (devs := Platform.device_types)
      Platform.PrivateUse1 12288 Platform.registered
    = (Err AlreadyRegisteredError, Platform.registered, [])
  ∧ GetStorageImplCreate (devs := Platform.device_types)
      Platform.PrivateUse1 Platform.registered
    = (Ok Platform.custom_create, Platform.registered, []).
Proof.
  assert (StorageImplCreate_initial (devs := Platform.device_types)
            !!! static_cast_int
                  (PrivateUse1 (DeviceTypes := Platform.device_types))
          = nullptr) as Hs by reflexivity.
  assert (Platform.custom_create ≠ nullptr) as Hf by discriminate.
  destruct (registration_is_one_shot (devs := Platform.device_types)
              StorageImplCreate_initial Platform.custom_create 12288 Hs Hf)
    as (H1 & H2 & H3 & _).
  split_and!; [exact Hs | exact Hf | exact H1 | exact H3 | exact H2].
Defined.

(** C7 for CUDA on the platform, after a successful and a refused
    registration. *)
Lemma registration_outside_allow_list_fails_witness :
  Platform.CUDA ≠ PrivateUse1 (DeviceTypes := Platform.device_types)
  ∧ SetStorageImplCreate (devs := Platform.device_types) Platform.CUDA
      Platform.custom_create Platform.registered
    = (Err DomainNotAllowedError, Platform.registered, [])
  ∧ GetStorageImplCreate (devs := Platform.device_types) Platform.CUDA
      (registrations (devs := Platform.device_types)
         [(Platform.PrivateUse1, Platform.custom_create);
          (Platform.CPU, 12288)]
         StorageImplCreate_initial)
    = (Ok nullptr, Platform.registered, []).
Proof.
  assert (Platform.CUDA ≠ PrivateUse1 (DeviceTypes := Platform.device_types))
    as Ht by discriminate.
  destruct (registration_outside_allow_list_fails
              (devs := Platform.device_types) Platform.CUDA
              Platform.custom_create
              [(Platform.PrivateUse1, Platform.custom_create);
               (Platform.CPU, 12288)] Ht) as (H1 & H2 & _).
  split_and!; [exact Ht | exact (H1 Platform.registered) | exact H2].
Defined.

(** C5, the claim as stated, fails where a creation function is registered:
    for PrivateUse1 on the platform the factory hands the supplied buffer at
    4096 to custom_create and returns what that returns, a handle on a
    buffer at 48879. *)
Lemma supplied_buffer_not_adopted_by_custom_create :
  DataPtr_ne_nullptr Platform.buffer = true
  ∧ make_storage_impl (caps := Platform.capabilities)
      (devs := Platform.device_types) tt (Concrete 64) Platform.buffer 8 true
      (Some {| type := Platform.PrivateUse1; index := 0 |})
      Platform.registered
    = (Ok Platform.sentinel, Platform.registered,
       [EvCreate Platform.custom_create (Concrete 64) Platform.buffer 8
          true])
  ∧ data_ptr_ Platform.sentinel ≠ Platform.buffer
  ∧ DataPtr_get (data_ptr_ Platform.sentinel) ≠ DataPtr_get Platform.buffer.
Proof. by split_and!. Qed.

(** C5 as amended, on the platform: a device type without a creation
    function, next to one that has one. *)
Lemma supplied_buffer_is_adopted_witness :
  registered_for (devs := Platform.device_types) Platform.registered
    (Some {| type := Platform.CUDA; index := 0 |}) = nullptr
  ∧ DataPtr_ne_nullptr Platform.buffer = true
  ∧ ∃ this,
      make_storage_impl (caps := Platform.capabilities)
        (devs := Platform.device_types) tt (Concrete 64) Platform.buffer 8
        true (Some {| type := Platform.CUDA; index := 0 |})
        Platform.registered
      = (Ok this, Platform.registered, [])
      ∧ data_ptr_ this = Platform.buffer
      ∧ DataPtr_get (data_ptr_ this) = DataPtr_get Platform.buffer.
Proof.
  assert (registered_for (devs := Platform.device_types) Platform.registered
            (Some {| type := Platform.CUDA; index := 0 |}) = nullptr)
    as Hf by reflexivity.
  assert (DataPtr_ne_nullptr Platform.buffer = true) as Hb by reflexivity.
  split_and!; [exact Hf | exact Hb |].
  exact (supplied_buffer_is_adopted (caps := Platform.capabilities)
           (devs := Platform.device_types) tt (Concrete 64) Platform.buffer
           8 true (Some {| type := Platform.CUDA; index := 0 |})
           Platform.registered Hf Hb).
Defined.

(** C10, the claim as stated, fails where a creation function is
    registered: for PrivateUse1 on the platform the factory hands the null
    buffer to custom_create; the allocator is not asked and the allocator-
    backed constructor is not what builds the handle. *)
Lemma null_buffer_handed_to_custom_create :
  DataPtr_eq_nullptr Platform.null_buffer = true
  ∧ make_storage_impl (caps := Platform.capabilities)
      (devs := Platform.device_types) tt (Concrete 64) Platform.null_buffer
      8 true (Some {| type := Platform.PrivateUse1; index := 0 |})
      Platform.registered
    = (Ok Platform.sentinel, Platform.registered,
       [EvCreate Platform.custom_create (Concrete 64) Platform.null_buffer
          8 true])
  ∧ make_storage_impl (caps := Platform.capabilities)
      (devs := Platform.device_types) tt (Concrete 64) Platform.null_buffer
      8 true (Some {| type := Platform.PrivateUse1; index := 0 |})
      Platform.registered
    ≠ StorageImpl_of_allocator (caps := Platform.capabilities) tt
        (Concrete 64) 8 true Platform.registered.
Proof. by split_and!. Qed.

(** C10 as amended, on the platform. *)
Lemma null_buffer_is_allocated_witness :
  registered_for (devs := Platform.device_types) Platform.registered
    (Some {| type := Platform.CPU; index := 0 |}) = nullptr
  ∧ DataPtr_eq_nullptr Platform.null_buffer = true
  ∧ make_storage_impl (caps := Platform.capabilities)
      (devs := Platform.device_types) tt (Concrete 64) Platform.null_buffer
      8 true (Some {| type := Platform.CPU; index := 0 |})
      Platform.registered
    = (Ok (StorageImpl_init (Concrete 64) {| dp_data := 65536; dp_ctx := 8 |}
             8 true),
       Platform.registered, [EvAllocate 8 (Concrete 64)]).
Proof.
  assert (registered_for (devs := Platform.device_types) Platform.registered
            (Some {| type := Platform.CPU; index := 0 |}) = nullptr)
    as Hf by reflexivity.
  assert (DataPtr_eq_nullptr Platform.null_buffer = true) as Hb
    by reflexivity.
  split_and!; [exact Hf | exact Hb |].
  exact (proj2 (null_buffer_is_allocated (caps := Platform.capabilities)
                  (devs := Platform.device_types) tt (Concrete 64)
                  Platform.null_buffer 8 true
                  (Some {| type := Platform.CPU; index := 0 |})
                  Platform.registered Hf Hb)).
Defined.

(** ** Further properties of the registry *)

Section Registry_sequences.
Context `{devs : DeviceTypes DeviceType}.
Implicit Types (t : DeviceType) (fptr : StorageImplCreateHelper).
Implicit Types (reg : Registry).
Implicit Types (rs : list (DeviceType * StorageImplCreateHelper)).

(** The three ways a registration attempt can go. *)
Lemma SetStorageImplCreate_cases t fptr reg :
  (t ≠ PrivateUse1
   ∧ SetStorageImplCreate t fptr reg = (Err DomainNotAllowedError, reg, []))
  ∨ (t = PrivateUse1 ∧ reg !!! static_cast_int PrivateUse1 ≠ nullptr
     ∧ SetStorageImplCreate t fptr reg
       = (Err AlreadyRegisteredError, reg, []))
  ∨ (t = PrivateUse1 ∧ reg !!! static_cast_int PrivateUse1 = nullptr
     ∧ SetStorageImplCreate t fptr reg
       = (Ok tt, vinsert (static_cast_int PrivateUse1) fptr reg, [])).
Proof.
  destruct (decide (t = PrivateUse1)) as [->|Hne].
  - destruct (decide (reg !!! static_cast_int PrivateUse1 = nullptr)).
    + right; right. auto using SetStorageImplCreate_stores.
    + right; left. auto using SetStorageImplCreate_taken.
  - left. auto using SetStorageImplCreate_refused.
Qed.

Lemma registrations_frozen rs reg :
  reg !!! static_cast_int PrivateUse1 ≠ nullptr →
  registrations rs reg = reg.
Proof.
  intros Hs. induction rs as [|[t fptr] rs IH]; [done|].
  cbn -[SetStorageImplCreate].
  destruct (SetStorageImplCreate_cases t fptr reg)
    as [[_ ->]|[(_ & _ & ->)|(_ & Hs' & _)]]; done.
Qed.

Lemma registrations_from_empty_slot rs reg :
  reg !!! static_cast_int PrivateUse1 = nullptr →
  registrations rs reg
  = vinsert (static_cast_int PrivateUse1) (first_registered rs) reg.
Proof.
  intros Hs. induction rs as [|[t fptr] rs IH].
  - cbn. by rewrite <- Hs, vlookup_insert_self.
  - cbn -[SetStorageImplCreate].
    destruct (SetStorageImplCreate_cases t fptr reg)
      as [[Hne ->]|[(_ & Hs' & _)|(-> & _ & ->)]]; [|done|].
    + rewrite bool_decide_eq_false_2 by (by intros [? _]). apply IH.
    + cbn. destruct (decide (fptr = nullptr)) as [->|Hf].
      * rewrite bool_decide_eq_false_2 by (by intros [_ ?]).
        rewrite <- Hs at 1. rewrite vlookup_insert_self. apply IH.
      * rewrite bool_decide_eq_true_2 by done.
        apply registrations_frozen. by rewrite vlookup_insert.
Qed.

(** X1. Registering nullptr for PrivateUse1 while the slot is empty
    succeeds and leaves the registry exactly as it was: the slot is still
    empty, and a registration that follows succeeds as if it were the
    first. *)
Theorem null_registration_keeps_slot_free (reg : Registry)
    (fptr : StorageImplCreateHelper) :
  reg !!! static_cast_int PrivateUse1 = nullptr →
  SetStorageImplCreate PrivateUse1 nullptr reg = (Ok tt, reg, [])
  ∧ SetStorageImplCreate PrivateUse1 fptr
      (SetStorageImplCreate PrivateUse1 nullptr reg).1.2
    = (Ok tt, vinsert (static_cast_int PrivateUse1) fptr reg, []).
Proof.
  intros Hs.
  assert (SetStorageImplCreate PrivateUse1 nullptr reg = (Ok tt, reg, []))
    as H0.
  { rewrite (SetStorageImplCreate_stores _ _ Hs).
    rewrite <- Hs at 1. by rewrite vlookup_insert_self. }
  split; [done|]. rewrite H0. cbn.
  by apply SetStorageImplCreate_stores.
Qed.

(** X2. After any sequence of registration attempts on the zero-initialised
    array, the registry is the initial one with a single slot written: the
    PrivateUse1 slot holds the first non-null function that was offered for
    PrivateUse1 (nullptr when none was), later offers do not replace it, and
    every other slot is empty. *)
Theorem first_registration_wins
    (rs : list (DeviceType * StorageImplCreateHelper)) :
  registrations rs StorageImplCreate_initial
  = vinsert (static_cast_int PrivateUse1) (first_registered rs)
      StorageImplCreate_initial
  ∧ GetStorageImplCreate PrivateUse1
      (registrations rs StorageImplCreate_initial)
    = (Ok (first_registered rs), registrations rs StorageImplCreate_initial,
       []).
Proof.
  assert (registrations rs StorageImplCreate_initial
          = vinsert (static_cast_int PrivateUse1) (first_registered rs)
              StorageImplCreate_initial) as Hr.
  { apply registrations_from_empty_slot. apply vlookup_replicate. }
  split; [done|].
  rewrite GetStorageImplCreate_reads. rewrite Hr at 1.
  by rewrite vlookup_insert.
Qed.

(** X3. Once the PrivateUse1 slot holds a function, the registry is frozen:
    every registration attempt, for any device type and any function, fails
    and leaves the array unchanged, and so does any sequence of them. *)
Theorem registry_frozen_once_registered (reg : Registry) (t : DeviceType)
    (fptr : StorageImplCreateHelper)
    (rs : list (DeviceType * StorageImplCreateHelper)) :
  reg !!! static_cast_int PrivateUse1 ≠ nullptr →
  (SetStorageImplCreate t fptr reg
   = (Err (if bool_decide (t = PrivateUse1) then AlreadyRegisteredError
           else DomainNotAllowedError), reg, []))
  ∧ registrations rs reg = reg.
Proof.
  intros Hs. split; [|by apply registrations_frozen].
  destruct (SetStorageImplCreate_cases t fptr reg)
    as [[Hne ->]|[(-> & _ & ->)|(_ & Hs' & _)]]; [| |done].
  - by rewrite bool_decide_eq_false_2.
  - by rewrite bool_decide_eq_true_2.
Qed.

(** X4. Whenever a registration succeeds, the device type is PrivateUse1,
    the lookup for it on the resulting registry returns the function just
    registered, and the lookup for every other device type returns what it
    returned before. *)
Theorem registration_then_lookup (reg : Registry) (t t' : DeviceType)
    (fptr : StorageImplCreateHelper) :
  (SetStorageImplCreate t fptr reg).1.1 = Ok tt →
  let reg' := (SetStorageImplCreate t fptr reg).1.2 in
  t = PrivateUse1
  ∧ GetStorageImplCreate t reg' = (Ok fptr, reg', [])
  ∧ (t' = t
     ∨ GetStorageImplCreate t' reg'
       = (Ok (reg !!! static_cast_int t'), reg', [])).
Proof.
  intros Hok reg'. unfold reg'. clear reg'.
  destruct (SetStorageImplCreate_cases t fptr reg)
    as [[_ Hr]|[(_ & _ & Hr)|(-> & _ & Hr)]];
    rewrite Hr in Hok |- *; [done|done|]. cbn.
  rewrite !GetStorageImplCreate_reads, vlookup_insert.
  split_and!; [done|done|].
  destruct (decide (t' = PrivateUse1)) as [|Hne]; [by left|right].
  rewrite vlookup_insert_ne; [done|].
  intros Heq. by apply (inj _) in Heq.
Qed.

(** X5. Whenever a registration fails, the array is unchanged and no
    outside call was made; the error is DomainNotAllowedError exactly when
    the device type is not PrivateUse1, and AlreadyRegisteredError exactly
    when it is PrivateUse1 and its slot is taken. *)
Theorem failed_registration_changes_nothing (reg : Registry)
    (t : DeviceType) (fptr : StorageImplCreateHelper) (e : Error) :
  (SetStorageImplCreate t fptr reg).1.1 = Err e →
  SetStorageImplCreate t fptr reg = (Err e, reg, [])
  ∧ ((e = DomainNotAllowedError ∧ t ≠ PrivateUse1)
     ∨ (e = AlreadyRegisteredError ∧ t = PrivateUse1
        ∧ reg !!! static_cast_int PrivateUse1 ≠ nullptr)).
Proof.
  intros Herr.
  destruct (SetStorageImplCreate_cases t fptr reg)
    as [[Hne Hr]|[(-> & Hs & Hr)|(_ & _ & Hr)]];
    rewrite Hr in Herr |- *; cbn in Herr; [| |done];
    injection Herr as <-; split; auto.
Qed.

End Registry_sequences.

(** ** Further properties of the factory and the accessors *)

Section Factory_and_registry.
Context `{caps : Capabilities} `{devs : DeviceTypes DeviceType}.
Implicit Types (reg : Registry).

(** X6. Whatever registration attempts have been made on the
    zero-initialised array, construction for a device whose type is not
    PrivateUse1 is default construction: no registered function is ever
    called for it. *)
Theorem other_device_types_construct_by_default
    (rs : list (DeviceType * StorageImplCreateHelper))
    (use_byte_size : use_byte_size_t) (size_bytes : SymInt)
    (data_ptr : DataPtr) (allocator : Allocator) (resizable : bool)
    (device : Device DeviceType) :
  type device ≠ PrivateUse1 →
  let reg := registrations rs StorageImplCreate_initial in
  make_storage_impl use_byte_size size_bytes data_ptr allocator resizable
    (Some device) reg
  = default_storage_impl use_byte_size size_bytes data_ptr allocator
      resizable reg.
Proof.
  intros Ht reg. rewrite make_storage_impl_cases.
  rewrite bool_decide_eq_true_2; [done|]. cbn [registered_for]. unfold reg.
  rewrite registrations_other_slots by done. apply vlookup_replicate.
Qed.

(** X7. Registration and construction compose: once a non-null function
    has been registered with success for a device type, construction for
    any device of that type is the call of that function with the
    arguments of the factory, and returns (or throws) what it does. *)
Theorem registered_function_constructs (reg : Registry)
    (fptr : StorageImplCreateHelper) (use_byte_size : use_byte_size_t)
    (size_bytes : SymInt) (data_ptr : DataPtr) (allocator : Allocator)
    (resizable : bool) (device : Device DeviceType) :
  (SetStorageImplCreate (type device) fptr reg).1.1 = Ok tt →
  fptr ≠ nullptr →
  let reg' := (SetStorageImplCreate (type device) fptr reg).1.2 in
  make_storage_impl use_byte_size size_bytes data_ptr allocator resizable
    (Some device) reg'
  = (invoke fptr use_byte_size size_bytes data_ptr allocator resizable,
     reg', [EvCreate fptr size_bytes data_ptr allocator resizable]).
Proof.
  intros Hok Hf reg'. unfold reg'. clear reg'.
  rewrite make_storage_impl_cases. cbn [registered_for].
  destruct (SetStorageImplCreate_cases (type device) fptr reg)
    as [[_ Hr]|[(_ & _ & Hr)|(Heq & _ & Hr)]];
    rewrite Hr in Hok |- *; [done|done|]. cbn.
  rewrite Heq, vlookup_insert. by rewrite bool_decide_eq_false_2.
Qed.

(** X8. The factory looks at the type of the target device only: two
    devices of the same type, whatever their indices, give the same
    outcome on the same registry. *)
Theorem device_index_is_ignored (reg : Registry)
    (use_byte_size : use_byte_size_t) (size_bytes : SymInt)
    (data_ptr : DataPtr) (allocator : Allocator) (resizable : bool)
    (device device' : Device DeviceType) :
  type device = type device' →
  make_storage_impl use_byte_size size_bytes data_ptr allocator resizable
    (Some device) reg
  = make_storage_impl use_byte_size size_bytes data_ptr allocator resizable
      (Some device') reg.
Proof.
  intros Ht. rewrite !make_storage_impl_cases. cbn [registered_for].
  by rewrite Ht.
Qed.

End Factory_and_registry.

Section Accessors_gate.
Context `{caps : Capabilities}.

(** X9. With has_data_ptr_check_ clear the mutable accessors test nothing
    else: whatever the throw flag and the copy-on-write mark hold, they
    return what the read accessors return, never throw and never
    materialise, and no sequence of accessor calls changes the handle. *)
Theorem clear_gate_skips_all_checks (this : StorageImpl)
    (cs : list Accessor) :
  has_data_ptr_check_ this = false →
  mutable_data this = data this
  ∧ mutable_data_ptr this = data_ptr this
  ∧ mutable_data this = (Ok (DataPtr_get (data_ptr_ this)), this, [])
  ∧ (calls cs this).1.2 = this
  ∧ (calls cs this).2 = [].
Proof.
  intros Hc. rewrite data_returns, data_ptr_returns.
  rewrite (mutable_data_unchecked this Hc),
    (mutable_data_ptr_unchecked this Hc).
  destruct (calls_unchecked cs this Hc) as [H1 H2]. by split_and!.
Qed.

(** X10. The two mutable accessors agree on every handle: mutable_data
    does to the handle and to the outside what mutable_data_ptr does, throws
    when and what it throws, and returns the address held by the buffer
    handle that mutable_data_ptr returns.  The read accessors agree in the
    same way. *)
Theorem raw_accessors_follow_data_ptr_accessors (this : StorageImpl) :
  mutable_data this
  = ((Result_map DataPtr_mutable_get (mutable_data_ptr this).1.1,
      (mutable_data_ptr this).1.2), (mutable_data_ptr this).2)
  ∧ data this
    = ((Result_map DataPtr_get (data_ptr this).1.1, (data_ptr this).1.2),
       (data_ptr this).2).
Proof.
  split; [|done].
  destruct (has_data_ptr_check_ this) eqn:Hc;
    [|by rewrite mutable_data_unchecked, mutable_data_ptr_unchecked].
  destruct (throw_on_mutable_data_ptr_ this) eqn:Ht;
    [by rewrite mutable_data_throws, mutable_data_ptr_throws|].
  destruct (copy_on_write_ this) eqn:Hw;
    [|by rewrite mutable_data_idle, mutable_data_ptr_idle].
  destruct (materialize (data_ptr_ this) (size_bytes_ this)) as [b|e] eqn:Hm.
  - by rewrite (mutable_data_materializes this b),
      (mutable_data_ptr_materializes this b).
  - by rewrite (mutable_data_fails this e), (mutable_data_ptr_fails this e).
Qed.

End Accessors_gate.

(** ** The further properties at work on the platform *)

(** X1 on the initial registry. *)
Lemma null_registration_keeps_slot_free_witness :
  StorageImplCreate_initial (devs := Platform.device_types)
    !!! static_cast_int (PrivateUse1 (DeviceTypes := Platform.device_types))
  = nullptr
  ∧ SetStorageImplCreate (devs := Platform.device_types)
      Platform.PrivateUse1 nullptr StorageImplCreate_initial
    = (Ok tt, StorageImplCreate_initial, [])
  ∧ SetStorageImplCreate (devs := Platform.device_types)
      Platform.PrivateUse1 Platform.custom_create
      (SetStorageImplCreate (devs := Platform.device_types)
         Platform.PrivateUse1 nullptr StorageImplCreate_initial).1.2
    = (Ok tt, Platform.registered, []).
Proof.
  assert (StorageImplCreate_initial (devs := Platform.device_types)
            !!! static_cast_int
                  (PrivateUse1 (DeviceTypes := Platform.device_types))
          = nullptr) as Hs by reflexivity.
  destruct (null_registration_keeps_slot_free
              (devs := Platform.device_types) StorageImplCreate_initial
              Platform.custom_create Hs) as [H1 H2].
  split_and!; [exact Hs | exact H1 | exact H2].
Defined.

(** X3 on the registry of the platform that holds custom_create. *)
Lemma registry_frozen_once_registered_witness :
  Platform.registered
    !!! static_cast_int (DeviceTypes := Platform.device_types)
          Platform.PrivateUse1
  ≠ nullptr
  ∧ SetStorageImplCreate (devs := Platform.device_types) Platform.XLA 12288
      Platform.registered
    = (Err DomainNotAllowedError, Platform.registered, [])
  ∧ registrations (devs := Platform.device_types)
      [(Platform.PrivateUse1, 12288); (Platform.PrivateUse1, nullptr);
       (Platform.CPU, 12288)]
      Platform.registered
    = Platform.registered.
Proof.
  assert (Platform.registered
            !!! static_cast_int (DeviceTypes := Platform.device_types)
                  Platform.PrivateUse1
          ≠ nullptr) as Hs by discriminate.
  destruct (registry_frozen_once_registered (devs := Platform.device_types)
              Platform.registered Platform.XLA 12288
              [(Platform.PrivateUse1, 12288); (Platform.PrivateUse1, nullptr);
               (Platform.CPU, 12288)] Hs) as [H1 H2].
  split_and!; [exact Hs | exact H1 | exact H2].
Defined.

(** X4 on the first registration of the platform, looked up for
    PrivateUse1 and for HIP. *)
Lemma registration_then_lookup_witness :
  (SetStorageImplCreate (devs := Platform.device_types) Platform.PrivateUse1
     Platform.custom_create StorageImplCreate_initial).1.1 = Ok tt
  ∧ GetStorageImplCreate (devs := Platform.device_types)
      Platform.PrivateUse1 Platform.registered
    = (Ok Platform.custom_create, Platform.registered, []).
Proof.
  assert ((SetStorageImplCreate (devs := Platform.device_types)
             Platform.PrivateUse1 Platform.custom_create
             StorageImplCreate_initial).1.1 = Ok tt) as Hok by reflexivity.
  destruct (registration_then_lookup (devs := Platform.device_types)
              StorageImplCreate_initial Platform.PrivateUse1 Platform.HIP
              Platform.custom_create Hok) as (_ & H2 & _).
  split; [exact Hok | exact H2].
Defined.

(** X5 on a second registration for PrivateUse1. *)
Lemma failed_registration_changes_nothing_witness :
  (SetStorageImplCreate (devs := Platform.device_types) Platform.PrivateUse1
     12288 Platform.registered).1.1 = Err AlreadyRegisteredError
  ∧ SetStorageImplCreate (devs := Platform.device_types)
      Platform.PrivateUse1 12288 Platform.registered
    = (Err AlreadyRegisteredError, Platform.registered, []).
Proof.
  assert ((SetStorageImplCreate (devs := Platform.device_types)
             Platform.PrivateUse1 12288 Platform.registered).1.1
          = Err AlreadyRegisteredError) as Herr by reflexivity.
  split; [exact Herr|].
  exact (proj1 (failed_registration_changes_nothing
                  (devs := Platform.device_types) Platform.registered
                  Platform.PrivateUse1 12288 AlreadyRegisteredError Herr)).
Defined.

(** X6 for CUDA after custom_create has been registered: the supplied
    buffer is adopted, custom_create is not called. *)
Lemma other_device_types_construct_by_default_witness :
  Platform.CUDA ≠ PrivateUse1 (DeviceTypes := Platform.device_types)
  ∧ make_storage_impl (caps := Platform.capabilities)
      (devs := Platform.device_types) tt (Concrete 64) Platform.buffer 8 true
      (Some {| type := Platform.CUDA; index := 1 |}) Platform.registered
    = (Ok (StorageImpl_init (Concrete 64) Platform.buffer 8 true),
       Platform.registered, []).
Proof.
  assert (Platform.CUDA ≠ PrivateUse1 (DeviceTypes := Platform.device_types))
    as Ht by discriminate.
  split; [exact Ht|].
  exact (other_device_types_construct_by_default
           (caps := Platform.capabilities) (devs := Platform.device_types)
           [(Platform.PrivateUse1, Platform.custom_create)] tt (Concrete 64)
           Platform.buffer 8 true {| type := Platform.CUDA; index := 1 |}
           Ht).
Defined.

(** X7 on the platform: register custom_create, then construct for
    PrivateUse1. *)
Lemma registered_function_constructs_witness :
  (SetStorageImplCreate (devs := Platform.device_types) Platform.PrivateUse1
     Platform.custom_create StorageImplCreate_initial).1.1 = Ok tt
  ∧ Platform.custom_create ≠ nullptr
  ∧ make_storage_impl (caps := Platform.capabilities)
      (devs := Platform.device_types) tt (Concrete 64) Platform.null_buffer
      8 false (Some {| type := Platform.PrivateUse1; index := 3 |})
      Platform.registered
    = (Ok Platform.sentinel, Platform.registered,
       [EvCreate Platform.custom_create (Concrete 64) Platform.null_buffer 8
          false]).
Proof.
  assert ((SetStorageImplCreate (devs := Platform.device_types)
             Platform.PrivateUse1 Platform.custom_create
             StorageImplCreate_initial).1.1 = Ok tt) as Hok by reflexivity.
  assert (Platform.custom_create ≠ nullptr) as Hf by discriminate.
  split_and!; [exact Hok | exact Hf |].
  exact (registered_function_constructs (caps := Platform.capabilities)
           (devs := Platform.device_types) StorageImplCreate_initial
           Platform.custom_create tt (Concrete 64) Platform.null_buffer 8
           false {| type := Platform.PrivateUse1; index := 3 |} Hok Hf).
Defined.

(** X8 on the platform: PrivateUse1 devices 0 and 5. *)
Lemma device_index_is_ignored_witness :
  type {| type := Platform.PrivateUse1; index := 0 |}
  = type {| type := Platform.PrivateUse1; index := 5 |}
  ∧ make_storage_impl (caps := Platform.capabilities)
      (devs := Platform.device_types) tt (Concrete 64) Platform.buffer 8 true
      (Some {| type := Platform.PrivateUse1; index := 0 |})
      Platform.registered
    = make_storage_impl (caps := Platform.capabilities)
        (devs := Platform.device_types) tt (Concrete 64) Platform.buffer 8
        true (Some {| type := Platform.PrivateUse1; index := 5 |})
        Platform.registered.
Proof.
  split; [reflexivity|].
  exact (device_index_is_ignored (caps := Platform.capabilities)
           (devs := Platform.device_types) Platform.registered tt
           (Concrete 64) Platform.buffer 8 true
           {| type := Platform.PrivateUse1; index := 0 |}
           {| type := Platform.PrivateUse1; index := 5 |} eq_refl).
Defined.

(** X9 on a handle with both flags set and the gate clear. *)
Lemma clear_gate_skips_all_checks_witness :
  has_data_ptr_check_ Platform.ungated_handle = false
  ∧ throw_on_mutable_data_ptr_ Platform.ungated_handle = true
  ∧ copy_on_write_ Platform.ungated_handle = true
  ∧ mutable_data (caps := Platform.capabilities) Platform.ungated_handle
    = (Ok 4096, Platform.ungated_handle, []).
Proof.
  assert (has_data_ptr_check_ Platform.ungated_handle = false) as Hc
    by reflexivity.
  destruct (clear_gate_skips_all_checks (caps := Platform.capabilities)
              Platform.ungated_handle [Call_mutable_data_ptr] Hc)
    as (_ & _ & H3 & _).
  split_and!; [exact Hc | reflexivity | reflexivity | exact H3].
Defined.
